(** * openrtb: the Bid object, its flexible string and its validation

    A shallow embedding of [bid.go]:
    - [MultiString], a string that decodes from a JSON string or number
      ([UnmarshalJSON], [MarshalJSON], [String]);
    - the [Bid] record with its [json] struct tags;
    - [Validate], the check of the two required attributes.

    Methods with a pointer receiver run in a small state monad over the
    store the receiver points into; a run either returns or panics. *)

From Stdlib Require Import ZArith Ascii String Strings.Byte HexString.
From stdpp Require Import base option list strings gmap pretty.

Local Open Scope Z_scope.

(** ** Go runtime: calls, panics, pointers *)

Module Go.

(** How a call ends: it returns a value or it panics. *)
Inductive outcome (A : Type) : Type :=
| Done (a : A)
| Panic (msg : string).
Arguments Done {A} a.
Arguments Panic {A} msg.

(** A computation over a store [S]. *)
Definition M (S A : Type) : Type := S → outcome A * S.

Definition ret {S A} (a : A) : M S A := λ h, (Done a, h).

Definition bind {S A B} (m : M S A) (k : A → M S B) : M S B :=
  λ h, match m h with
       | (Done a, h') => k a h'
       | (Panic msg, h') => (Panic msg, h')
       end.

Definition panic {S A} (msg : string) : M S A := λ h, (Panic msg, h).

(** Pointers: [None] is [nil], [Some l] points at cell [l] of the store. *)
Definition loc := positive.
Definition ptr := option loc.

Definition nil_dereference : string :=
  "runtime error: invalid memory address or nil pointer dereference".

(** [*p] as an expression. *)
Definition load {T} (p : ptr) : M (gmap loc T) T :=
  λ h, match p with
       | None => (Panic nil_dereference, h)
       | Some l => match h !! l with
                   | Some v => (Done v, h)
                   | None => (Panic nil_dereference, h)
                   end
       end.

(** [*p = v]. *)
Definition store {T} (p : ptr) (v : T) : M (gmap loc T) unit :=
  λ h, match p with
       | None => (Panic nil_dereference, h)
       | Some l => match h !! l with
                   | Some _ => (Done tt, <[l := v]> h)
                   | None => (Panic nil_dereference, h)
                   end
       end.

(** [n] calls in a row, results in call order. *)
Fixpoint times {S A} (n : nat) (m : M S A) : M S (list A) :=
  match n with
  | O => ret []
  | S n' => bind m (λ a, bind (times n' m) (λ rest, ret (a :: rest)))
  end.

End Go.

Import Go.

#[global] Instance M_ret {S} : MRet (M S) := @Go.ret S.
#[global] Instance M_bind {S} : MBind (M S) := λ A B k m, Go.bind m k.

(** ** Errors *)

(** The [error] values that reach this package: those made by [errors.New]
    and the two that [json.Unmarshal] reports when it decodes into an empty
    interface. *)
Inductive error : Type :=
| errorString (s : string)
| json_SyntaxError (msg : string) (Offset : Z)
| json_UnmarshalTypeError (Value : string) (Offset : Z).

Definition errors_New (text : string) : error := errorString text.

(** The [Error() string] method. *)
Definition error_Error (e : error) : string :=
  match e with
  | errorString s => s
  | json_SyntaxError msg _ => msg
  | json_UnmarshalTypeError v _ =>
      "json: cannot unmarshal " +:+ v +:+ " into Go value of type float64"
  end.

(** Validation errors *)
Definition ErrInvalidBidNoID : error := errors_New "openrtb: bid is missing ID".
Definition ErrInvalidBidNoImpID : error :=
  errors_New "openrtb: bid is missing impression ID".

(** ** Dynamic values *)

(** What [json.Unmarshal] stores into an [interface{}]: [nil] for null,
    [bool], [float64], [string], [[]interface{}], [map[string]interface{}]. *)
#[warnings="-register-all"] Inductive any (float64 : Type) : Type :=
| any_nil
| any_bool (b : bool)
| any_float64 (f : float64)
| any_string (s : string)
| any_slice (l : list (any float64))
| any_map (m : list (string * any float64)).
Arguments any_nil {float64}.
Arguments any_bool {float64} b.
Arguments any_float64 {float64} f.
Arguments any_string {float64} s.
Arguments any_slice {float64} l.
Arguments any_map {float64} m.

(** [reflect.Type] of the dynamic types above. *)
Inductive rtype : Type :=
| t_bool | t_float64 | t_string | t_slice_any | t_map_string_any.

(** [reflect.TypeOf]: the nil interface has no type, the result is nil. *)
Definition reflect_TypeOf {float64} (v : any float64) : option rtype :=
  match v with
  | any_nil => None
  | any_bool _ => Some t_bool
  | any_float64 _ => Some t_float64
  | any_string _ => Some t_string
  | any_slice _ => Some t_slice_any
  | any_map _ => Some t_map_string_any
  end.

Definition rtype_name (t : rtype) : string :=
  match t with
  | t_bool => "bool"
  | t_float64 => "float64"
  | t_string => "string"
  | t_slice_any => "[]interface {}"
  | t_map_string_any => "map[string]interface {}"
  end.

(** The [String()] method called on a [reflect.Type] interface value: on a
    nil interface the call panics. *)
Definition Type_String {S} (t : option rtype) : M S string :=
  match t with
  | Some t => ret (rtype_name t)
  | None => panic nil_dereference
  end.

(** ** What the package calls and does not define *)

(** The functions of Go's standard library that [bid.go] calls, and the
    [Extension] type that the package declares in another file. *)
Class Library : Type := {
  float64 : Type;
  (** [json.Unmarshal(data, &value)] with [value] an empty interface. *)
  json_Unmarshal : list byte → error + any float64;
  (** [strconv.FormatFloat(f, fmt, prec, bitSize)]. *)
  strconv_FormatFloat : float64 → ascii → Z → Z → string;
  (** [strconv.Quote], which [fmt] uses for the verb [%q] on a string. *)
  strconv_Quote : string → string;
  (** What [fmt] prints under [%q] for a pointer operand that it does not
      print through a [String] method: the output of its [Format] or
      [Error] method when it has one, of reflection otherwise. *)
  fmt_pointer_q : ptr → string;
  (** [float64(x) == 0]. *)
  float64_is_zero : float64 → bool;
  Extension : Type;
  (** [reflect]'s emptiness test at the kind of [Extension]. *)
  Extension_is_empty : Extension → bool;
}.

(** ** MultiString *)

(** [type MultiString string] *)
Definition MultiString : Type := string.

(** The conversions [MultiString(x)] and [string(s)]. *)
Definition MultiString_of_string (x : string) : MultiString := x.
Definition string_of_MultiString (s : MultiString) : string := s.

(** The methods declared on [MultiString], each with the kind of its
    receiver. *)
Inductive receiver : Type := by_value | by_pointer.

Definition MultiString_methods : list (string * receiver) :=
  [("UnmarshalJSON", by_pointer); ("MarshalJSON", by_pointer);
   ("String", by_value)].

(** Method sets: that of [T] holds the methods with receiver [T], that of
    [*T] holds those with receiver [T] or [*T]. *)
Definition method_set (pointer : bool) (ms : list (string * receiver))
  : list string :=
  (List.filter
     (λ m, match m.2 with by_value => true | by_pointer => pointer end) ms).*1.

Definition has_method (set : list string) (name : string) : bool :=
  bool_decide (name ∈ set).

Section MultiString.
Context {L : Library}.

(** [func (s MultiString) String() string] *)
Definition MultiString_String (s : MultiString) : string :=
  string_of_MultiString s.

(** [func (s *MultiString) UnmarshalJSON(data []byte) error] *)
Definition UnmarshalJSON (s : ptr) (data : list byte)
  : M (gmap loc MultiString) (option error) :=
  match json_Unmarshal data with
  | inl err => mret (Some err)
  | inr value =>
      match value with
      | any_string str =>
          store s (MultiString_of_string str) ;; mret None
      | any_float64 f =>
          store s (MultiString_of_string
                     (strconv_FormatFloat f "f"%char (-1) 64)) ;; mret None
      | _ =>
          name ← Type_String (reflect_TypeOf value);
          mret (Some (errors_New ("unknown type: " +:+ name)))
      end
  end.

(** [s.String()] with [s] a [*MultiString]: the receiver is [*s]. *)
Definition String_through_pointer (s : ptr) : M (gmap loc MultiString) string :=
  v ← load s; mret (MultiString_String v).

(** [fmt.Sprintf("%q", s)] with [s] a [*MultiString].  The verb is valid for
    strings, so [fmt] looks in the operand's method set for [Format], then
    [Error], then [String]; the text that [String] returns is printed as a
    string under [%q], and a [String] that panics on a nil receiver prints
    as [<nil>]. *)
Definition Sprintf_q (s : ptr) : M (gmap loc MultiString) string :=
  let set := method_set true MultiString_methods in
  if has_method set "Format" || has_method set "Error" then
    mret (fmt_pointer_q s)
  else if has_method set "String" then
    λ h, match String_through_pointer s h with
         | (Done str, h') => (Done (strconv_Quote str), h')
         | (Panic msg, h') =>
             (Done (match s with
                    | None => "<nil>"
                    | Some _ => "%!q(PANIC=String method: " +:+ msg +:+ ")"
                    end), h')
         end
  else mret (fmt_pointer_q s).

(** [func (s *MultiString) MarshalJSON() ([]byte, error)] *)
Definition MarshalJSON (s : ptr)
  : M (gmap loc MultiString) (list byte * option error) :=
  out ← Sprintf_q s; mret (list_byte_of_string out, None).

End MultiString.

(** ** Bid *)

Section Bid.
Context {L : Library}.

(** [type Bid struct] *)
Record Bid : Type := {
  ID : string;
  ImpID : string;
  Price : float64;
  AdID : string;
  NURL : string;
  AdMarkup : string;
  AdvDomain : list string;
  Bundle : string;
  IURL : string;
  CampaignID : MultiString;
  CreativeID : string;
  Cat : list string;
  Attr : list Z;
  API : Z;
  Protocol : Z;
  QAGMediaRating : Z;
  DealID : string;
  H : Z;
  W : Z;
  Exp : Z;
  Ext : Extension;
}.

(** [func (bid *Bid) Validate() error] *)
Definition Validate (bid : ptr) : M (gmap loc Bid) (option error) :=
  b ← load bid;
  if bool_decide (ID b = "") then mret (Some ErrInvalidBidNoID)
  else if bool_decide (ImpID b = "") then mret (Some ErrInvalidBidNoImpID)
  else mret None.

(** *** The struct tags, as [encoding/json] reads them *)

(** A field's value, by the type the struct declares for it. *)
Inductive field_value : Type :=
| v_string (s : string)
| v_float64 (f : float64)
| v_strings (l : list string)
| v_MultiString (s : MultiString)
| v_ints (l : list Z)
| v_int (n : Z)
| v_Extension (e : Extension).

(** A field: its Go name, the value of the [json] key of its tag, and how
    to read it from a record. *)
Record struct_field : Type := {
  field_name : string;
  field_tag : string;
  field_get : Bid → field_value;
}.

Definition Bid_fields : list struct_field := [
  {| field_name := "ID"; field_tag := "id";
     field_get := λ b, v_string (ID b) |};
  {| field_name := "ImpID"; field_tag := "impid";
     field_get := λ b, v_string (ImpID b) |};
  {| field_name := "Price"; field_tag := "price";
     field_get := λ b, v_float64 (Price b) |};
  {| field_name := "AdID"; field_tag := "adid,omitempty";
     field_get := λ b, v_string (AdID b) |};
  {| field_name := "NURL"; field_tag := "nurl,omitempty";
     field_get := λ b, v_string (NURL b) |};
  {| field_name := "AdMarkup"; field_tag := "adm,omitempty";
     field_get := λ b, v_string (AdMarkup b) |};
  {| field_name := "AdvDomain"; field_tag := "adomain,omitempty";
     field_get := λ b, v_strings (AdvDomain b) |};
  {| field_name := "Bundle"; field_tag := "bundle,omitempty";
     field_get := λ b, v_string (Bundle b) |};
  {| field_name := "IURL"; field_tag := "iurl,omitempty";
     field_get := λ b, v_string (IURL b) |};
  {| field_name := "CampaignID"; field_tag := "cid,omitempty";
     field_get := λ b, v_MultiString (CampaignID b) |};
  {| field_name := "CreativeID"; field_tag := "crid,omitempty";
     field_get := λ b, v_string (CreativeID b) |};
  {| field_name := "Cat"; field_tag := "cat,omitempty";
     field_get := λ b, v_strings (Cat b) |};
  {| field_name := "Attr"; field_tag := "attr,omitempty";
     field_get := λ b, v_ints (Attr b) |};
  {| field_name := "API"; field_tag := "api,omitempty";
     field_get := λ b, v_int (API b) |};
  {| field_name := "Protocol"; field_tag := "protocol,omitempty";
     field_get := λ b, v_int (Protocol b) |};
  {| field_name := "QAGMediaRating"; field_tag := "qagmediarating,omitempty";
     field_get := λ b, v_int (QAGMediaRating b) |};
  {| field_name := "DealID"; field_tag := "dealid,omitempty";
     field_get := λ b, v_string (DealID b) |};
  {| field_name := "H"; field_tag := "h,omitempty";
     field_get := λ b, v_int (H b) |};
  {| field_name := "W"; field_tag := "w,omitempty";
     field_get := λ b, v_int (W b) |};
  {| field_name := "Exp"; field_tag := "exp,omitempty";
     field_get := λ b, v_int (Exp b) |};
  {| field_name := "Ext"; field_tag := "ext,omitempty";
     field_get := λ b, v_Extension (Ext b) |}
].

(** [strings.Cut(s, ",")]: the text before the first comma and the text
    after it. *)
Fixpoint cut_comma (s : string) : string * string :=
  match s with
  | EmptyString => ("", "")
  | String c rest =>
      if bool_decide (c = ","%char) then ("", rest)
      else let '(before, after) := cut_comma rest in (String c before, after)
  end.

(** [parseTag]: the name and the options of a tag. *)
Definition parseTag (tag : string) : string * string := cut_comma tag.

(** The loop of [tagOptions.Contains]: cut off one option at a time until
    nothing is left. *)
Fixpoint Contains_loop (fuel : nat) (s optionName : string) : bool :=
  match fuel with
  | O => false
  | S fuel' =>
      if bool_decide (s = "") then false
      else let '(name, rest) := cut_comma s in
           if bool_decide (name = optionName) then true
           else Contains_loop fuel' rest optionName
  end.

Definition tagOptions_Contains (o optionName : string) : bool :=
  if bool_decide (o = "") then false
  else Contains_loop (String.length o) o optionName.

(** [isValidTag] on the ASCII range: a name is made of letters, digits and
    the punctuation that needs no quoting. *)
Definition tag_char_ok (c : ascii) : bool :=
  let n := Z.of_N (N_of_ascii c) in
  bool_decide (c ∈ list_ascii_of_string "!#$%&()*+-./:;<=>?@[]^_{|}~ ")
  || ((48 <=? n) && (n <=? 57))
  || ((65 <=? n) && (n <=? 90))
  || ((97 <=? n) && (n <=? 122)).

Definition isValidTag (s : string) : bool :=
  negb (bool_decide (s = "")) && forallb tag_char_ok (list_ascii_of_string s).

(** [isEmptyValue], by the kind of the value. *)
Definition isEmptyValue (v : field_value) : bool :=
  match v with
  | v_string s => bool_decide (String.length s = 0%nat)
  | v_float64 f => float64_is_zero f
  | v_strings l => bool_decide (length l = 0%nat)
  | v_MultiString s => bool_decide (String.length s = 0%nat)
  | v_ints l => bool_decide (length l = 0%nat)
  | v_int n => bool_decide (n = 0)
  | v_Extension e => Extension_is_empty e
  end.

(** The name under which a field is written and whether it is left out
    when empty; [None] for a field tagged ["-"]. *)
Definition wire_field (f : struct_field) : option (string * bool) :=
  if bool_decide (field_tag f = "-") then None
  else let '(name, opts) := parseTag (field_tag f) in
       let name := if isValidTag name then name else "" in
       Some (if bool_decide (name = "") then field_name f else name,
             tagOptions_Contains opts "omitempty").

(** One turn of the struct encoder's loop over the fields: a field that is
    left out when empty and is empty is skipped, any other is written as
    a member under its name. *)
Definition member (f : struct_field) (b : Bid) : list (string * field_value) :=
  match wire_field f with
  | None => []
  | Some (name, omitEmpty) =>
      let v := field_get f b in
      if omitEmpty && isEmptyValue v then [] else [(name, v)]
  end.

(** The members of the object that the struct encoder writes for a
    record, in the order it writes them. *)
Definition struct_members (fields : list struct_field) (b : Bid)
  : list (string * field_value) :=
  f ← fields; member f b.

Definition Bid_members (b : Bid) : list (string * field_value) :=
  struct_members Bid_fields b.

(** A member that is written unless its value is empty: what a turn of the
    loop comes to for a field tagged [omitempty]. *)
Definition unless_empty (name : string) (v : field_value)
  : list (string * field_value) :=
  if isEmptyValue v then [] else [(name, v)].

(** The names of the members, in the order they are written. *)
Definition Bid_names (b : Bid) : list string := (Bid_members b).*1.

End Bid.

(** ASCII white space, as [unicode.IsSpace] has it: tab, line feed,
    vertical tab, form feed, carriage return, space. *)
Definition is_space (c : ascii) : Prop :=
  c ∈ ["009"%char; "010"%char; "011"%char; "012"%char; "013"%char; " "%char].

(** Text that is not empty and holds white space only. *)
Definition blank (s : string) : Prop :=
  s ≠ "" ∧ Forall is_space (list_ascii_of_string s).

(** The wire names of section 6 of the specification, in table order. *)
Definition wire_names : list string :=
  ["id"; "impid"; "price"; "adid"; "nurl"; "adm"; "adomain"; "bundle";
   "iurl"; "cid"; "crid"; "cat"; "attr"; "api"; "protocol";
   "qagmediarating"; "dealid"; "h"; "w"; "exp"; "ext"].

(** ** A library instance to run the code on *)

(** An instance of [Library] for the JSON texts [null], [true], [false],
    [[]], [{}], strings of printable ASCII without escapes and unsigned
    integers of at most fifteen digits.  On these a [float64] holds an
    integer exactly, so [Z] stands for it; longer or other inputs are
    reported as syntax errors. *)
Module Sample.

Definition dquote : ascii := "034"%char.
Definition backslash : ascii := "092"%char.

Definition plain (c : ascii) : bool :=
  let n := Z.of_N (N_of_ascii c) in
  (32 <=? n) && (n <? 127)
  && negb (bool_decide (c = dquote)) && negb (bool_decide (c = backslash)).

(** The text of a string literal after its opening quote: plain characters
    up to the closing quote, which ends the input. *)
Fixpoint string_body (s : string) : option string :=
  match s with
  | EmptyString => None
  | String c rest =>
      if bool_decide (c = dquote) then
        if bool_decide (rest = "") then Some "" else None
      else if plain c then String c <$> string_body rest
      else None
  end.

Fixpoint digits_value (acc : Z) (s : string) : option Z :=
  match s with
  | EmptyString => Some acc
  | String c rest =>
      let n := Z.of_N (N_of_ascii c) in
      if (48 <=? n) && (n <=? 57)
      then digits_value (10 * acc + (n - 48)) rest
      else None
  end.

Definition number (s : string) : option Z :=
  match s with
  | EmptyString => None
  | String c rest =>
      if bool_decide (c = "0"%char) && negb (bool_decide (rest = "")) then None
      else if bool_decide (String.length s ≤ 15)%nat then digits_value 0 s
      else None
  end.

Definition syntax_error (offset : Z) : error :=
  json_SyntaxError "invalid character looking for beginning of value" offset.

Definition Unmarshal (data : list byte) : error + any Z :=
  let src := string_of_list_byte data in
  if bool_decide (src = "") then
    inl (json_SyntaxError "unexpected end of JSON input" 0)
  else if bool_decide (src = "null") then inr any_nil
  else if bool_decide (src = "true") then inr (any_bool true)
  else if bool_decide (src = "false") then inr (any_bool false)
  else if bool_decide (src = "[]") then inr (any_slice [])
  else if bool_decide (src = "{}") then inr (any_map [])
  else match src with
       | EmptyString => inl (syntax_error 0)
       | String c rest =>
           if bool_decide (c = dquote) then
             match string_body rest with
             | Some text => inr (any_string text)
             | None => inl (syntax_error 1)
             end
           else match number src with
                | Some n => inr (any_float64 n)
                | None => inl (syntax_error 1)
                end
       end.

(** Decimal text of an integral value, as the format ['f'] with precision
    [-1] prints it. *)
Definition FormatFloat (f : Z) (fmt : ascii) (prec bitSize : Z) : string :=
  pretty f.

(** Quoting of text made of plain characters: nothing to escape. *)
Definition Quote (s : string) : string :=
  String dquote (s +:+ String dquote "").

Definition pointer_q (p : ptr) : string :=
  "%!q(*openrtb.MultiString=" +:+
  match p with
  | None => "<nil>"
  | Some l => HexString.of_pos l
  end +:+ ")".

(** [Extension] as raw JSON bytes, empty when it has no byte. *)
Definition library : Library := {|
  float64 := Z;
  json_Unmarshal := Unmarshal;
  strconv_FormatFloat := FormatFloat;
  strconv_Quote := Quote;
  fmt_pointer_q := pointer_q;
  float64_is_zero := λ f, bool_decide (f = 0);
  Extension := list byte;
  Extension_is_empty := λ e, bool_decide (length e = 0%nat);
|}.

(** [{"id":"b1","impid":"i1","price":2.5,"cid":123}] once decoded, with the
    price rounded to an integer. *)
Definition bid1 : @Bid library := {|
  ID := "b1"; ImpID := "i1"; Price := (2 : @float64 library);
  AdID := ""; NURL := ""; AdMarkup := ""; AdvDomain := []; Bundle := "";
  IURL := ""; CampaignID := "123"; CreativeID := ""; Cat := []; Attr := [];
  API := 0; Protocol := 0; QAGMediaRating := 0; DealID := "";
  H := 0; W := 0; Exp := 0; Ext := [];
|}.

(** A record whose two required attributes are blank but not empty. *)
Definition blank_bid : @Bid library := {|
  ID := " "; ImpID := " "; Price := (-1 : @float64 library);
  AdID := ""; NURL := ""; AdMarkup := ""; AdvDomain := []; Bundle := "";
  IURL := ""; CampaignID := ""; CreativeID := ""; Cat := []; Attr := [];
  API := 0; Protocol := 0; QAGMediaRating := 0; DealID := "";
  H := (-5); W := 0; Exp := 0; Ext := [];
|}.

(** A store of records and a store of flexible strings. *)
Definition bids : gmap loc (@Bid library) :=
  {[1%positive := bid1; 2%positive := blank_bid]}.

Definition strings : gmap loc MultiString := {[1%positive := "old"]}.

End Sample.

(** * Properties *)

Example sample_decodes :
  Sample.Unmarshal (list_byte_of_string "null") = inr any_nil
  ∧ Sample.Unmarshal (list_byte_of_string "true") = inr (any_bool true)
  ∧ Sample.Unmarshal (list_byte_of_string "123") = inr (any_float64 123)
  ∧ Sample.Unmarshal (list_byte_of_string "{}") = inr (any_map [])
  ∧ Sample.Unmarshal (list_byte_of_string "{") = inl (Sample.syntax_error 1)
  ∧ Sample.Unmarshal (String.list_byte_of_string (Sample.Quote "a b"))
    = inr (any_string "a b").
Proof. vm_compute. repeat split. Qed.

(** ** The store discipline *)

Section Store.
Context {T : Type}.
Implicit Types (h : gmap loc T) (l : loc) (v : T).

Lemma load_allocated h l v : h !! l = Some v → load (Some l) h = (Done v, h).
Proof. intros Hl. unfold load. by rewrite Hl. Qed.

Lemma store_allocated h l v w :
  h !! l = Some v → store (Some l) w h = (Done tt, <[l := w]> h).
Proof. intros Hl. unfold store. by rewrite Hl. Qed.

Lemma load_keeps_store (p : ptr) h : (load p h).2 = h.
Proof. unfold load. destruct p as [l|]; [destruct (h !! l)|]; done. Qed.

End Store.

(** ** MultiString *)

Section MultiString_properties.
Context {L : Library}.
Implicit Types (h : gmap loc MultiString) (l : loc) (s : ptr).

Lemma method_set_pointer_has_String :
  has_method (method_set true MultiString_methods) "String" = true
  ∧ has_method (method_set true MultiString_methods) "Format" = false
  ∧ has_method (method_set true MultiString_methods) "Error" = false.
Proof. vm_compute. done. Qed.

Lemma Sprintf_q_unfold s h :
  Sprintf_q s h =
  match String_through_pointer s h with
  | (Done str, h') => (Done (strconv_Quote str), h')
  | (Panic msg, h') =>
      (Done (match s with
             | None => "<nil>"
             | Some _ => "%!q(PANIC=String method: " +:+ msg +:+ ")"
             end), h')
  end.
Proof.
  unfold Sprintf_q.
  destruct method_set_pointer_has_String as (-> & -> & ->). done.
Qed.

Lemma String_through_pointer_keeps_store s h :
  (String_through_pointer s h).2 = h.
Proof.
  unfold String_through_pointer, mbind, M_bind, Go.bind.
  pose proof (load_keeps_store s h) as Hh.
  destruct (load s h) as [[v|msg] h']; simpl in *; by subst.
Qed.

(** The shapes other than text, number and null are reported by name. *)
Lemma UnmarshalJSON_unknown_type s data h value t :
  json_Unmarshal data = inr value →
  reflect_TypeOf value = Some t →
  t ≠ t_string → t ≠ t_float64 →
  UnmarshalJSON s data h
  = (Done (Some (errors_New ("unknown type: " +:+ rtype_name t))), h).
Proof.
  intros Hdata Ht Hs Hf. unfold UnmarshalJSON. rewrite Hdata.
  destruct value; simpl in Ht; simplify_eq; done.
Qed.

(** A number is stored in the format ['f'] with the least precision. *)
Lemma UnmarshalJSON_number l data h old f :
  h !! l = Some old →
  json_Unmarshal data = inr (any_float64 f) →
  UnmarshalJSON (Some l) data h
  = (Done None, <[l := strconv_FormatFloat f "f"%char (-1) 64]> h).
Proof.
  intros Hl Hdata. unfold UnmarshalJSON. rewrite Hdata.
  unfold mbind, M_bind, Go.bind, MultiString_of_string.
  by rewrite (store_allocated _ _ _ _ Hl).
Qed.

(** C2, at the input [null]: [json.Unmarshal] leaves the nil interface,
    [reflect.TypeOf] of it is nil, and the call of [String] on that nil
    panics; no error value is returned. *)
Theorem UnmarshalJSON_null_panics s data h :
  json_Unmarshal data = inr any_nil →
  UnmarshalJSON s data h = (Panic nil_dereference, h).
Proof. intros Hdata. unfold UnmarshalJSON. by rewrite Hdata. Qed.

(** C3: when the input parses as text, decoding returns nil and the
    receiver holds exactly that text; every other cell of the store is as
    before. *)
Theorem UnmarshalJSON_text_verbatim l data h old text :
  h !! l = Some old →
  json_Unmarshal data = inr (any_string text) →
  ∃ h', UnmarshalJSON (Some l) data h = (Done None, h')
        ∧ MultiString_String <$> h' !! l = Some text
        ∧ ∀ l', l' ≠ l → h' !! l' = h !! l'.
Proof.
  intros Hl Hdata. exists (<[l := MultiString_of_string text]> h).
  split; [|split].
  - unfold UnmarshalJSON. rewrite Hdata.
    unfold mbind, M_bind, Go.bind.
    by rewrite (store_allocated _ _ _ _ Hl).
  - by rewrite lookup_insert_eq.
  - intros l' Hne. by rewrite lookup_insert_ne.
Qed.


(** C8: a call that returns an error leaves the store, and so the
    receiver, as it was; the error is the decoder's own or names a shape
    that is neither text nor number. *)
Theorem UnmarshalJSON_error_keeps_receiver s data h h' (e : error) :
  UnmarshalJSON s data h = (Done (Some e), h') →
  h' = h
  ∧ (json_Unmarshal data = inl e
     ∨ ∃ value t, json_Unmarshal data = inr value
         ∧ reflect_TypeOf value = Some t
         ∧ t ≠ t_string ∧ t ≠ t_float64
         ∧ e = errors_New ("unknown type: " +:+ rtype_name t)).
Proof.
  unfold UnmarshalJSON.
  destruct (json_Unmarshal data) as [err|value] eqn:Hdata.
  - intros [= -> ->]. auto.
  - destruct value; simpl;
      unfold mbind, M_bind, Go.bind, mret, M_ret, Go.ret, Go.panic, store;
      try (destruct s as [l|]; [destruct (h !! l)|]); intros Hrun;
      simplify_eq; (split; [done|right]); eauto 10.
Qed.

(** C9: encoding returns bytes and a nil error for every receiver, the nil
    pointer included, and leaves the store alone. *)
Theorem MarshalJSON_never_fails s h :
  ∃ out : list byte, MarshalJSON s h = (Done (out, None), h).
Proof.
  unfold MarshalJSON, mbind, M_bind, Go.bind. rewrite Sprintf_q_unfold.
  pose proof (String_through_pointer_keeps_store s h) as Hh.
  destruct (String_through_pointer s h) as [[str|msg] h1];
    simpl in Hh; subst h1; eauto.
Qed.

End MultiString_properties.

(** ** Validate *)

Section Validate_properties.
Context {L : Library}.
Implicit Types (h : gmap loc Bid) (l : loc) (b : Bid).

(** The error that [Validate] reports for a record. *)
Lemma Validate_allocated h l b :
  h !! l = Some b →
  Validate (Some l) h
  = (Done (if bool_decide (ID b = "") then Some ErrInvalidBidNoID
           else if bool_decide (ImpID b = "") then Some ErrInvalidBidNoImpID
           else None), h).
Proof.
  intros Hl. unfold Validate, mbind, M_bind, Go.bind.
  rewrite (load_allocated _ _ _ Hl).
  destruct (bool_decide (ID b = "")); [done|].
  by destruct (bool_decide (ImpID b = "")).
Qed.

Lemma length_zero_empty (s : string) : String.length s = 0%nat ↔ s = "".
Proof. destruct s; simpl; intuition congruence. Qed.

(** C1: the identifier is checked first, the impression identifier next;
    each failure has its own error, one error at most comes back, and two
    records with the same two identifiers get the same answer whatever
    their other fields hold. *)
Theorem Validate_checks_in_order h l b :
  h !! l = Some b →
  (ID b = "" → (Validate (Some l) h).1 = Done (Some ErrInvalidBidNoID))
  ∧ (ID b ≠ "" → ImpID b = "" →
     (Validate (Some l) h).1 = Done (Some ErrInvalidBidNoImpID))
  ∧ (ID b ≠ "" → ImpID b ≠ "" → (Validate (Some l) h).1 = Done None)
  ∧ ErrInvalidBidNoID ≠ ErrInvalidBidNoImpID
  ∧ (∀ h' l' b', h' !! l' = Some b' → ID b' = ID b → ImpID b' = ImpID b →
       (Validate (Some l') h').1 = (Validate (Some l) h).1).
Proof.
  intros Hl. rewrite (Validate_allocated _ _ _ Hl). simpl.
  repeat split.
  - intros ->. done.
  - intros Hid ->. by rewrite bool_decide_eq_false_2.
  - intros Hid Himp. by rewrite !bool_decide_eq_false_2.
  - discriminate.
  - intros h' l' b' Hl' Hid Himp.
    rewrite (Validate_allocated _ _ _ Hl'). simpl. by rewrite Hid, Himp.
Qed.

(** C7: a call returns and leaves the store as it found it, and any number
    of calls in a row give the same answer each time. *)
Theorem Validate_pure h l b (n : nat) :
  h !! l = Some b →
  ∃ r, Validate (Some l) h = (Done r, h)
       ∧ times n (Validate (Some l)) h = (Done (replicate n r), h).
Proof.
  intros Hl. eexists. split; [by apply Validate_allocated|].
  induction n as [|n IH]; [done|].
  simpl. unfold Go.bind at 1. rewrite (Validate_allocated _ _ _ Hl).
  unfold Go.bind. by rewrite IH.
Qed.

(** C10: identifiers of white space only are accepted; the answer is nil
    exactly when both identifiers have a length other than zero. *)
Theorem Validate_accepts_blank h l b :
  h !! l = Some b →
  (blank (ID b) → blank (ImpID b) → Validate (Some l) h = (Done None, h))
  ∧ ((Validate (Some l) h).1 = Done None
     ↔ String.length (ID b) ≠ 0%nat ∧ String.length (ImpID b) ≠ 0%nat).
Proof.
  intros Hl. rewrite (Validate_allocated _ _ _ Hl). simpl.
  rewrite !length_zero_empty. split.
  - intros [Hid _] [Himp _]. by rewrite !bool_decide_eq_false_2.
  - destruct (decide (ID b = "")) as [Hid|Hid];
      [rewrite (bool_decide_eq_true_2 _ Hid); intuition congruence|].
    rewrite (bool_decide_eq_false_2 _ Hid).
    destruct (decide (ImpID b = "")) as [Himp|Himp];
      [rewrite (bool_decide_eq_true_2 _ Himp); intuition congruence|].
    rewrite (bool_decide_eq_false_2 _ Himp). intuition congruence.
Qed.

(** Whatever the receiver, the store after a call is the store before. *)
Lemma Validate_keeps_store (p : ptr) h : (Validate p h).2 = h.
Proof.
  unfold Validate, mbind, M_bind, Go.bind.
  pose proof (load_keeps_store p h) as Hh.
  destruct (load p h) as [[b|msg] h1]; simpl in Hh; subst h1; [|done].
  destruct (bool_decide (ID b = "")); [done|].
  by destruct (bool_decide (ImpID b = "")).
Qed.

End Validate_properties.

(** ** The wire form of a Bid *)

Section Wire_properties.
Context {L : Library}.
Implicit Types (b : Bid) (v : field_value).

(** Each cut takes at least one character off what is left, so the loop
    of [tagOptions.Contains] ends within the length of the options; more
    fuel changes nothing. *)
Lemma cut_comma_shorter (s : string) :
  (String.length (cut_comma s).2 ≤ Nat.pred (String.length s))%nat.
Proof.
  induction s as [|c rest IH]; simpl; [done|].
  case_bool_decide; simpl; [done|].
  destruct (cut_comma rest) as [before after]; simpl in *. lia.
Qed.

Lemma Contains_loop_fuel (fuel fuel' : nat) (s optionName : string) :
  (String.length s ≤ fuel)%nat → (String.length s ≤ fuel')%nat →
  Contains_loop fuel s optionName = Contains_loop fuel' s optionName.
Proof.
  revert fuel' s.
  induction fuel as [|fuel IH]; intros [|fuel'] s Hs Hs'; simpl; try done.
  - destruct s; simpl in *; [done|lia].
  - destruct s; simpl in *; [done|lia].
  - case_bool_decide; [done|].
    pose proof (cut_comma_shorter s) as Hcut.
    destruct (cut_comma s) as [name rest]; simpl in Hcut.
    case_bool_decide; [done|]. apply IH; lia.
Qed.

(** The loop of the encoder, field by field. *)
Lemma Bid_members_unfold b :
  Bid_members b =
  [("id", v_string (ID b)); ("impid", v_string (ImpID b));
   ("price", v_float64 (Price b))]
  ++ unless_empty "adid" (v_string (AdID b))
  ++ unless_empty "nurl" (v_string (NURL b))
  ++ unless_empty "adm" (v_string (AdMarkup b))
  ++ unless_empty "adomain" (v_strings (AdvDomain b))
  ++ unless_empty "bundle" (v_string (Bundle b))
  ++ unless_empty "iurl" (v_string (IURL b))
  ++ unless_empty "cid" (v_MultiString (CampaignID b))
  ++ unless_empty "crid" (v_string (CreativeID b))
  ++ unless_empty "cat" (v_strings (Cat b))
  ++ unless_empty "attr" (v_ints (Attr b))
  ++ unless_empty "api" (v_int (API b))
  ++ unless_empty "protocol" (v_int (Protocol b))
  ++ unless_empty "qagmediarating" (v_int (QAGMediaRating b))
  ++ unless_empty "dealid" (v_string (DealID b))
  ++ unless_empty "h" (v_int (H b))
  ++ unless_empty "w" (v_int (W b))
  ++ unless_empty "exp" (v_int (Exp b))
  ++ unless_empty "ext" (v_Extension (Ext b)).
Proof. rewrite <-(app_nil_r (unless_empty "ext" _)). reflexivity. Qed.

Lemma elem_of_unless_empty (x name : string) v :
  x ∈ (unless_empty name v).*1 ↔ x = name ∧ isEmptyValue v = false.
Proof.
  unfold unless_empty. destruct (isEmptyValue v); simpl.
  - rewrite elem_of_nil. intuition congruence.
  - rewrite list_elem_of_singleton. intuition congruence.
Qed.

Lemma sublist_unless_empty name v (k : list (string * field_value)) k' :
  k.*1 `sublist_of` k' →
  (unless_empty name v ++ k).*1 `sublist_of` name :: k'.
Proof.
  intros Hk. unfold unless_empty. destruct (isEmptyValue v); simpl.
  - by apply sublist_cons.
  - by apply sublist_skip.
Qed.

Lemma elem_of_Bid_names b (x : string) :
  x ∈ Bid_names b ↔
  x = "id" ∨ x = "impid" ∨ x = "price"
  ∨ (x = "adid" ∧ isEmptyValue (v_string (AdID b)) = false)
  ∨ (x = "nurl" ∧ isEmptyValue (v_string (NURL b)) = false)
  ∨ (x = "adm" ∧ isEmptyValue (v_string (AdMarkup b)) = false)
  ∨ (x = "adomain" ∧ isEmptyValue (v_strings (AdvDomain b)) = false)
  ∨ (x = "bundle" ∧ isEmptyValue (v_string (Bundle b)) = false)
  ∨ (x = "iurl" ∧ isEmptyValue (v_string (IURL b)) = false)
  ∨ (x = "cid" ∧ isEmptyValue (v_MultiString (CampaignID b)) = false)
  ∨ (x = "crid" ∧ isEmptyValue (v_string (CreativeID b)) = false)
  ∨ (x = "cat" ∧ isEmptyValue (v_strings (Cat b)) = false)
  ∨ (x = "attr" ∧ isEmptyValue (v_ints (Attr b)) = false)
  ∨ (x = "api" ∧ isEmptyValue (v_int (API b)) = false)
  ∨ (x = "protocol" ∧ isEmptyValue (v_int (Protocol b)) = false)
  ∨ (x = "qagmediarating" ∧ isEmptyValue (v_int (QAGMediaRating b)) = false)
  ∨ (x = "dealid" ∧ isEmptyValue (v_string (DealID b)) = false)
  ∨ (x = "h" ∧ isEmptyValue (v_int (H b)) = false)
  ∨ (x = "w" ∧ isEmptyValue (v_int (W b)) = false)
  ∨ (x = "exp" ∧ isEmptyValue (v_int (Exp b)) = false)
  ∨ (x = "ext" ∧ isEmptyValue (v_Extension (Ext b)) = false).
Proof.
  unfold Bid_names. rewrite Bid_members_unfold.
  rewrite !fmap_app, !elem_of_app, !elem_of_unless_empty.
  simpl. rewrite !elem_of_cons, elem_of_nil. tauto.
Qed.

Lemma Bid_names_sublist b : Bid_names b `sublist_of` wire_names.
Proof.
  unfold Bid_names. rewrite Bid_members_unfold.
  rewrite <-(app_nil_r (unless_empty "ext" _)).
  unfold wire_names. simpl. do 3 apply sublist_skip.
  repeat apply sublist_unless_empty. apply sublist_nil_l.
Qed.

Lemma string_not_empty (s : string) :
  bool_decide (String.length s = 0%nat) = false ↔ s ≠ "".
Proof. by rewrite bool_decide_eq_false, length_zero_empty. Qed.

Lemma list_not_empty {A} (l : list A) :
  bool_decide (length l = 0%nat) = false ↔ l ≠ [].
Proof. by rewrite bool_decide_eq_false, length_zero_iff_nil. Qed.

Lemma int_not_zero (n : Z) : bool_decide (n = 0) = false ↔ n ≠ 0.
Proof. by rewrite bool_decide_eq_false. Qed.

(** Membership of a given name: run through the cases of
    [elem_of_Bid_names]; all but one compare two different names. *)
Ltac not_empty_in Hx :=
  simpl isEmptyValue in Hx;
  first [ apply string_not_empty in Hx
        | apply list_not_empty in Hx
        | apply int_not_zero in Hx
        | idtac ].

Ltac not_empty :=
  simpl isEmptyValue;
  first [ apply string_not_empty
        | apply list_not_empty
        | apply int_not_zero
        | idtac ].

Ltac pick_name Hp :=
  solve [ repeat first
    [ solve [left; reflexivity]
    | solve [split; [reflexivity|not_empty; exact Hp]]
    | solve [left; split; [reflexivity|not_empty; exact Hp]]
    | right ] ].

Ltac other_names Hx :=
  repeat match type of Hx with
         | _ ∨ _ => destruct Hx as [Hx|Hx]
         | _ = _ => discriminate Hx
         | _ = _ ∧ _ =>
             let Hn := fresh "Hn" in
             destruct Hx as [Hn Hx];
             first [discriminate Hn | not_empty_in Hx; exact Hx]
         end.

Ltac member_of_name :=
  first [ apply elem_of_Bid_names; pick_name I
        | etrans; [apply elem_of_Bid_names|];
          split; [ let Hx := fresh "Hx" in intros Hx; other_names Hx
                 | let Hp := fresh "Hp" in intros Hp; pick_name Hp ] ].

(** C6: the object written for a record has its members under names of
    the table of section 6, in the order of the table and none twice; [id],
    [impid] and [price] are always among them, and each other name is
    among them exactly when its field is not empty. *)
Theorem Bid_wire_names b :
  Bid_names b `sublist_of` wire_names
  ∧ NoDup (Bid_names b)
  ∧ "id" ∈ Bid_names b ∧ "impid" ∈ Bid_names b ∧ "price" ∈ Bid_names b
  ∧ ("adid" ∈ Bid_names b ↔ AdID b ≠ "")
  ∧ ("nurl" ∈ Bid_names b ↔ NURL b ≠ "")
  ∧ ("adm" ∈ Bid_names b ↔ AdMarkup b ≠ "")
  ∧ ("adomain" ∈ Bid_names b ↔ AdvDomain b ≠ [])
  ∧ ("bundle" ∈ Bid_names b ↔ Bundle b ≠ "")
  ∧ ("iurl" ∈ Bid_names b ↔ IURL b ≠ "")
  ∧ ("cid" ∈ Bid_names b ↔ CampaignID b ≠ "")
  ∧ ("crid" ∈ Bid_names b ↔ CreativeID b ≠ "")
  ∧ ("cat" ∈ Bid_names b ↔ Cat b ≠ [])
  ∧ ("attr" ∈ Bid_names b ↔ Attr b ≠ [])
  ∧ ("api" ∈ Bid_names b ↔ API b ≠ 0)
  ∧ ("protocol" ∈ Bid_names b ↔ Protocol b ≠ 0)
  ∧ ("qagmediarating" ∈ Bid_names b ↔ QAGMediaRating b ≠ 0)
  ∧ ("dealid" ∈ Bid_names b ↔ DealID b ≠ "")
  ∧ ("h" ∈ Bid_names b ↔ H b ≠ 0)
  ∧ ("w" ∈ Bid_names b ↔ W b ≠ 0)
  ∧ ("exp" ∈ Bid_names b ↔ Exp b ≠ 0)
  ∧ ("ext" ∈ Bid_names b ↔ Extension_is_empty (Ext b) = false).
Proof.
  split; [apply Bid_names_sublist|].
  split.
  { apply (sublist_NoDup _ wire_names); [|apply Bid_names_sublist].
    apply (bool_decide_unpack _). by vm_compute. }
  repeat (split; [member_of_name|]). member_of_name.
Qed.

End Wire_properties.

(** ** The properties at work on the sample library *)

Lemma Validate_checks_in_order_witness :
  Sample.bids !! 1%positive = Some Sample.bid1
  ∧ (Validate (Some 1%positive) Sample.bids).1 = Done None.
Proof.
  assert (Hl : Sample.bids !! 1%positive = Some Sample.bid1) by reflexivity.
  split; [exact Hl|].
  destruct (Validate_checks_in_order _ _ _ Hl) as (_ & _ & Hok & _).
  apply Hok; discriminate.
Defined.

Lemma Validate_pure_witness :
  Sample.bids !! 1%positive = Some Sample.bid1
  ∧ ∃ r, Validate (Some 1%positive) Sample.bids = (Done r, Sample.bids)
         ∧ times 3 (Validate (Some 1%positive)) Sample.bids
           = (Done (replicate 3 r), Sample.bids).
Proof.
  assert (Hl : Sample.bids !! 1%positive = Some Sample.bid1) by reflexivity.
  split; [exact Hl|]. exact (Validate_pure _ _ _ 3 Hl).
Defined.

Lemma Validate_accepts_blank_witness :
  Sample.bids !! 2%positive = Some Sample.blank_bid
  ∧ blank (ID Sample.blank_bid) ∧ blank (ImpID Sample.blank_bid)
  ∧ Validate (Some 2%positive) Sample.bids = (Done None, Sample.bids).
Proof.
  assert (Hl : Sample.bids !! 2%positive = Some Sample.blank_bid)
    by reflexivity.
  assert (Hblank : blank " ").
  { split; [discriminate|]. repeat constructor. }
  split; [exact Hl|]. split; [exact Hblank|]. split; [exact Hblank|].
  destruct (Validate_accepts_blank _ _ _ Hl) as [Hok _].
  exact (Hok Hblank Hblank).
Defined.

Lemma UnmarshalJSON_null_panics_witness :
  json_Unmarshal (Library := Sample.library) (list_byte_of_string "null")
  = inr any_nil
  ∧ UnmarshalJSON (L := Sample.library) (Some 1%positive)
      (list_byte_of_string "null") Sample.strings
    = (Panic nil_dereference, Sample.strings).
Proof.
  assert (Hdata : json_Unmarshal (Library := Sample.library)
                    (list_byte_of_string "null") = inr any_nil)
    by reflexivity.
  split; [exact Hdata|].
  exact (UnmarshalJSON_null_panics (L := Sample.library) _ _ _ Hdata).
Defined.

Lemma UnmarshalJSON_text_verbatim_witness :
  Sample.strings !! 1%positive = Some "old"
  ∧ json_Unmarshal (Library := Sample.library)
      (list_byte_of_string (Sample.Quote "a b")) = inr (any_string "a b")
  ∧ ∃ h', UnmarshalJSON (L := Sample.library) (Some 1%positive)
            (list_byte_of_string (Sample.Quote "a b")) Sample.strings
          = (Done None, h')
        ∧ MultiString_String <$> h' !! 1%positive = Some "a b"
        ∧ ∀ l', l' ≠ 1%positive → h' !! l' = Sample.strings !! l'.
Proof.
  assert (Hl : Sample.strings !! 1%positive = Some "old") by reflexivity.
  assert (Hdata : json_Unmarshal (Library := Sample.library)
                    (list_byte_of_string (Sample.Quote "a b"))
                  = inr (any_string "a b")) by reflexivity.
  split; [exact Hl|]. split; [exact Hdata|].
  exact (UnmarshalJSON_text_verbatim (L := Sample.library) _ _ _ _ _ Hl Hdata).
Defined.


Lemma UnmarshalJSON_error_keeps_receiver_witness :
  UnmarshalJSON (L := Sample.library) (Some 1%positive)
    (list_byte_of_string "true") Sample.strings
  = (Done (Some (errors_New "unknown type: bool")),
     (UnmarshalJSON (L := Sample.library) (Some 1%positive)
        (list_byte_of_string "true") Sample.strings).2)
  ∧ (UnmarshalJSON (L := Sample.library) (Some 1%positive)
       (list_byte_of_string "true") Sample.strings).2 = Sample.strings.
Proof.
  assert (Hrun : UnmarshalJSON (L := Sample.library) (Some 1%positive)
                   (list_byte_of_string "true") Sample.strings
                 = (Done (Some (errors_New "unknown type: bool")),
                    (UnmarshalJSON (L := Sample.library) (Some 1%positive)
                       (list_byte_of_string "true") Sample.strings).2))
    by reflexivity.
  split; [exact Hrun|].
  exact (proj1 (UnmarshalJSON_error_keeps_receiver (L := Sample.library)
                  _ _ _ _ _ Hrun)).
Defined.

(** The shapes the decoder names, and a number stored as its decimal text,
    as in [{"id":"b1","impid":"i1","price":2.5,"cid":123}]. *)
Example sample_shapes :
  (UnmarshalJSON (L := Sample.library) (Some 1%positive)
     (list_byte_of_string "false") Sample.strings).1
  = Done (Some (errors_New "unknown type: bool"))
  ∧ (UnmarshalJSON (L := Sample.library) (Some 1%positive)
       (list_byte_of_string "[]") Sample.strings).1
    = Done (Some (errors_New "unknown type: []interface {}"))
  ∧ (UnmarshalJSON (L := Sample.library) (Some 1%positive)
       (list_byte_of_string "{}") Sample.strings).1
    = Done (Some (errors_New "unknown type: map[string]interface {}"))
  ∧ UnmarshalJSON (L := Sample.library) (Some 1%positive)
      (list_byte_of_string "123") Sample.strings
    = (Done None, <[1%positive := "123"]> Sample.strings).
Proof. repeat split. Qed.

(** The nil receiver: encoding prints [<nil>] and still reports no error. *)
Example sample_nil_receiver :
  MarshalJSON (L := Sample.library) None Sample.strings
  = (Done (list_byte_of_string "<nil>", None), Sample.strings).
Proof. reflexivity. Qed.

(** The members written for the sample record. *)
Example sample_names :
  Bid_names Sample.bid1 = ["id"; "impid"; "price"; "cid"].
Proof. reflexivity. Qed.

(** * Further properties *)

(** Membership in a list that is written out. *)
Ltac in_list :=
  solve [ repeat first [ apply list_elem_of_here | apply list_elem_of_further ] ].

Ltac not_in_list Hv :=
  solve [ repeat (apply elem_of_cons in Hv as [Hv|Hv]; [discriminate Hv|]);
          by apply elem_of_nil in Hv ].

(** ** Decoding, case by case *)

Section MultiString_runs.
Context {L : Library}.
Implicit Types (h : gmap loc MultiString) (l : loc) (s : ptr).

Lemma UnmarshalJSON_text l data h old text :
  h !! l = Some old →
  json_Unmarshal data = inr (any_string text) →
  UnmarshalJSON (Some l) data h = (Done None, <[l := text]> h).
Proof.
  intros Hl Hdata. unfold UnmarshalJSON. rewrite Hdata.
  unfold mbind, M_bind, Go.bind, MultiString_of_string.
  by rewrite (store_allocated _ _ _ _ Hl).
Qed.

Lemma UnmarshalJSON_decoder_error s data h (e : error) :
  json_Unmarshal data = inl e → UnmarshalJSON s data h = (Done (Some e), h).
Proof. intros Hdata. unfold UnmarshalJSON. by rewrite Hdata. Qed.

Lemma UnmarshalJSON_nil s data h :
  json_Unmarshal data = inr any_nil →
  UnmarshalJSON s data h = (Panic nil_dereference, h).
Proof. intros Hdata. unfold UnmarshalJSON. by rewrite Hdata. Qed.

(** The store after a call: as before, or as before but for the receiver. *)
Lemma UnmarshalJSON_store l data h old (o : outcome (option error)) h' :
  h !! l = Some old →
  UnmarshalJSON (Some l) data h = (o, h') →
  (h' = h ∧ o ≠ Done None) ∨ (o = Done None ∧ ∃ text, h' = <[l := text]> h).
Proof.
  intros Hl. unfold UnmarshalJSON.
  destruct (json_Unmarshal data) as [err|value]; [intros [= <- <-]; by left|].
  destruct value;
    unfold mbind, M_bind, Go.bind, mret, M_ret, Go.ret, Go.panic, store;
    simpl; rewrite ?Hl; intros [= <- <-];
    (by left) || (right; eauto).
Qed.

(** A call that does not return nil leaves the store as it was, whatever
    the receiver. *)
Lemma UnmarshalJSON_failure s data h (o : outcome (option error)) h' :
  UnmarshalJSON s data h = (o, h') → o ≠ Done None → h' = h.
Proof.
  unfold UnmarshalJSON.
  destruct (json_Unmarshal data) as [err|value]; [by intros [= <- <-]|].
  destruct value;
    unfold mbind, M_bind, Go.bind, mret, M_ret, Go.ret, Go.panic, store;
    simpl; try (destruct s as [l|]; [destruct (h !! l)|]);
    intros [= <- <-]; done.
Qed.

Lemma MarshalJSON_allocated h l (v : MultiString) :
  h !! l = Some v →
  MarshalJSON (Some l) h
  = (Done (list_byte_of_string (strconv_Quote v), None), h).
Proof.
  intros Hl. unfold MarshalJSON, mbind, M_bind, Go.bind.
  rewrite Sprintf_q_unfold.
  unfold String_through_pointer, mbind, M_bind, Go.bind.
  by rewrite (load_allocated _ _ _ Hl).
Qed.

Lemma String_allocated h l (v : MultiString) :
  h !! l = Some v → String_through_pointer (Some l) h = (Done v, h).
Proof.
  intros Hl. unfold String_through_pointer, mbind, M_bind, Go.bind.
  by rewrite (load_allocated _ _ _ Hl).
Qed.

(** X1: when the input parses as a number, decoding returns nil and the
    receiver holds the text that [strconv.FormatFloat] gives for it in the
    format ['f'] with precision [-1] and 64 bits; every other cell of the
    store is as before. *)
Theorem UnmarshalJSON_number_stored l data h old (f : float64) :
  h !! l = Some old →
  json_Unmarshal data = inr (any_float64 f) →
  ∃ h', UnmarshalJSON (Some l) data h = (Done None, h')
        ∧ h' !! l = Some (strconv_FormatFloat f "f"%char (-1) 64)
        ∧ ∀ l', l' ≠ l → h' !! l' = h !! l'.
Proof.
  intros Hl Hdata. eexists. split; [by eapply UnmarshalJSON_number|].
  split; [by rewrite lookup_insert_eq|].
  intros l' Hne. by rewrite lookup_insert_ne.
Qed.

(** X2: a boolean is refused with the message [unknown type: bool], a
    sequence with [unknown type: []interface {}] and a mapping with
    [unknown type: map[string]interface {}]; the receiver is not looked
    at, so this holds for the nil receiver too, and the store is as
    before. *)
Theorem UnmarshalJSON_names_shape s data h (value : any float64) :
  json_Unmarshal data = inr value →
  (∀ b, value = any_bool b →
     UnmarshalJSON s data h
     = (Done (Some (errors_New "unknown type: bool")), h))
  ∧ (∀ vs, value = any_slice vs →
       UnmarshalJSON s data h
       = (Done (Some (errors_New "unknown type: []interface {}")), h))
  ∧ (∀ m, value = any_map m →
       UnmarshalJSON s data h
       = (Done (Some (errors_New "unknown type: map[string]interface {}")),
          h)).
Proof.
  intros Hdata. unfold UnmarshalJSON. rewrite Hdata.
  split_and!; intros ? ->; reflexivity.
Qed.

(** X3: with a receiver that points at a value, a call returns nil exactly
    when the input parses as text or as a number, panics exactly when it
    parses as null, and returns an error exactly when the decoder fails or
    the input is a boolean, a sequence or a mapping. *)
Theorem UnmarshalJSON_outcomes l data h old :
  h !! l = Some old →
  ((UnmarshalJSON (Some l) data h).1 = Done None
   ↔ ∃ value, json_Unmarshal data = inr value
       ∧ reflect_TypeOf value ∈ [Some t_string; Some t_float64])
  ∧ ((∃ msg, (UnmarshalJSON (Some l) data h).1 = Panic msg)
     ↔ json_Unmarshal data = inr any_nil)
  ∧ ((∃ e, (UnmarshalJSON (Some l) data h).1 = Done (Some e))
     ↔ (∃ e, json_Unmarshal data = inl e)
       ∨ ∃ value, json_Unmarshal data = inr value
           ∧ reflect_TypeOf value
             ∈ [Some t_bool; Some t_slice_any; Some t_map_string_any]).
Proof.
  intros Hl. unfold UnmarshalJSON.
  destruct (json_Unmarshal data) as [err|value].
  { simpl. split_and!; split.
    - discriminate.
    - intros (v & Hv & _). discriminate.
    - intros [msg Hmsg]. discriminate.
    - discriminate.
    - eauto.
    - eauto. }
  destruct value;
    unfold mbind, M_bind, Go.bind, mret, M_ret, Go.ret, Go.panic, store;
    simpl; rewrite ?Hl; simpl;
    (split_and!; split;
     [ intros Hrun | intros (v & [= <-] & Hv)
     | intros [msg Hrun] | intros Hnil
     | intros [e Hrun] | intros [[e He]|(v & [= <-] & Hv)] ]);
    try discriminate; try done; try (by eauto);
    try (simpl in Hv; not_in_list Hv);
    try (eexists; split; [reflexivity|simpl; in_list]);
    try (right; eexists; split; [reflexivity|simpl; in_list]).
Qed.

End MultiString_runs.

(** ** The receiver: nil, panics, repeated calls *)

Section MultiString_receiver.
Context {L : Library}.
Implicit Types (h : gmap loc MultiString) (l : loc) (s : ptr).

Lemma UnmarshalJSON_nil_receiver_store data h :
  (UnmarshalJSON None data h).2 = h.
Proof.
  unfold UnmarshalJSON.
  destruct (json_Unmarshal data) as [err|value]; [done|].
  by destruct value.
Qed.

(** X4: through a nil receiver a call never returns nil and leaves the
    store alone: text and numbers, which need the receiver, end in a
    panic, and every error that a call with a valid receiver would return
    is returned all the same. *)
Theorem UnmarshalJSON_nil_receiver data h :
  (UnmarshalJSON None data h).2 = h
  ∧ (UnmarshalJSON None data h).1 ≠ Done None
  ∧ (∀ value, json_Unmarshal data = inr value →
       reflect_TypeOf value ∈ [Some t_string; Some t_float64] →
       UnmarshalJSON None data h = (Panic nil_dereference, h))
  ∧ (∀ l old e, h !! l = Some old →
       (UnmarshalJSON (Some l) data h).1 = Done (Some e) →
       UnmarshalJSON None data h = (Done (Some e), h)).
Proof.
  unfold UnmarshalJSON.
  destruct (json_Unmarshal data) as [err|value].
  { split_and!; [done|done|intros v [=]|].
    simpl. by intros l old e _ [= ->]. }
  destruct value;
    unfold mbind, M_bind, Go.bind, mret, M_ret, Go.ret, Go.panic, store;
    simpl;
    (split_and!;
     [ done | done
     | intros v [= <-] Hv; first [done | simpl in Hv; not_in_list Hv]
     | intros l' old e Hl; rewrite ?Hl; simpl; intros [=]; by subst ]).
Qed.

(** X5: a call that panics leaves the store as it was; the panic is the
    nil dereference, and the input parsed as null, as text or as a number:
    malformed input, booleans, sequences and mappings never panic. *)
Theorem UnmarshalJSON_panic s data h (msg : string) h' :
  UnmarshalJSON s data h = (Panic msg, h') →
  h' = h ∧ msg = nil_dereference
  ∧ ∃ value, json_Unmarshal data = inr value
      ∧ reflect_TypeOf value ∈ [None; Some t_string; Some t_float64].
Proof.
  intros Hrun. split; [by eapply UnmarshalJSON_failure|].
  revert Hrun. unfold UnmarshalJSON.
  destruct (json_Unmarshal data) as [err|value]; [intros [=]|].
  destruct value;
    unfold mbind, M_bind, Go.bind, mret, M_ret, Go.ret, Go.panic, store;
    simpl; try (destruct s as [l|]; [destruct (h !! l)|]);
    intros [= <- <-]; (split; [done|]);
    (eexists; split; [reflexivity|simpl; in_list]).
Qed.

(** X6: a successful decode of text replaces whatever an earlier call left
    in the receiver: after any call that returned, decoding text gives the
    store in which the receiver holds that text and nothing else differs
    from the start. *)
Theorem UnmarshalJSON_overwrites l d1 d2 h old (r : option error) h1 text :
  h !! l = Some old →
  UnmarshalJSON (Some l) d1 h = (Done r, h1) →
  json_Unmarshal d2 = inr (any_string text) →
  UnmarshalJSON (Some l) d2 h1 = (Done None, <[l := text]> h).
Proof.
  intros Hl Hrun Hd2.
  destruct (UnmarshalJSON_store _ _ _ _ _ _ Hl Hrun)
    as [[-> _]|[_ [t1 ->]]].
  - by apply (UnmarshalJSON_text _ _ _ old).
  - rewrite (UnmarshalJSON_text _ _ _ t1 text); [|by rewrite lookup_insert_eq|done].
    by rewrite insert_insert_eq.
Qed.

(** X7: decoding the same input twice in a row through the same receiver
    gives the result and the store of decoding it once. *)
Theorem UnmarshalJSON_twice s data h :
  (UnmarshalJSON s data ;; UnmarshalJSON s data) h = UnmarshalJSON s data h.
Proof.
  unfold mbind at 1. unfold M_bind, Go.bind.
  destruct (UnmarshalJSON s data h) as [[r|msg] h1] eqn:Hrun; [|done].
  destruct s as [l|].
  - destruct (h !! l) as [old|] eqn:Hl.
    + destruct (UnmarshalJSON_store _ _ _ _ _ _ Hl Hrun)
        as [[-> _]|[[= ->] [text ->]]]; [done|].
      revert Hrun. unfold UnmarshalJSON.
      destruct (json_Unmarshal data) as [err|value]; [by intros [=]|].
      destruct value;
        unfold mbind, M_bind, Go.bind, mret, M_ret, Go.ret, Go.panic, store;
        simpl; rewrite ?Hl, ?lookup_insert_eq; simpl; try (by intros [=]);
        intros [= Hh]; rewrite <-Hh at 2; by rewrite insert_insert_eq.
    + assert (h1 = h) as ->.
      { revert Hrun. unfold UnmarshalJSON.
        destruct (json_Unmarshal data) as [err|value]; [by intros [= <- <-]|].
        destruct value;
          unfold mbind, M_bind, Go.bind, mret, M_ret, Go.ret, Go.panic, store;
          simpl; rewrite ?Hl; by intros [= <- <-]. }
      done.
  - assert (h1 = h) as ->; [|done].
    pose proof (UnmarshalJSON_nil_receiver_store data h) as Hh.
    by rewrite Hrun in Hh.
Qed.

End MultiString_receiver.

(** ** Decoding, encoding and String together *)

Section MultiString_compose.
Context {L : Library}.
Implicit Types (h : gmap loc MultiString) (l : loc) (s : ptr).

(** X8: decoding and then encoding through the same receiver writes the
    quoted literal of the text that was read, and for a number the quoted
    literal of its decimal text: a number comes back as a string. *)
Theorem decode_then_encode l data h old :
  h !! l = Some old →
  (∀ text, json_Unmarshal data = inr (any_string text) →
     (UnmarshalJSON (Some l) data ;; MarshalJSON (Some l)) h
     = (Done (list_byte_of_string (strconv_Quote text), None),
        <[l := text]> h))
  ∧ (∀ f, json_Unmarshal data = inr (any_float64 f) →
       (UnmarshalJSON (Some l) data ;; MarshalJSON (Some l)) h
       = (Done (list_byte_of_string
                  (strconv_Quote (strconv_FormatFloat f "f"%char (-1) 64)),
                None),
          <[l := strconv_FormatFloat f "f"%char (-1) 64]> h)).
Proof.
  intros Hl. split.
  - intros text Hdata. unfold mbind at 1. unfold M_bind, Go.bind.
    rewrite (UnmarshalJSON_text _ _ _ _ _ Hl Hdata).
    apply MarshalJSON_allocated. by rewrite lookup_insert_eq.
  - intros f Hdata. unfold mbind at 1. unfold M_bind, Go.bind.
    rewrite (UnmarshalJSON_number _ _ _ _ _ Hl Hdata).
    apply MarshalJSON_allocated. by rewrite lookup_insert_eq.
Qed.

(** X9: after a decode that returned an error, encoding writes the text
    the receiver held before the decode. *)
Theorem encode_after_failed_decode l data h old (e : error) h' :
  h !! l = Some old →
  UnmarshalJSON (Some l) data h = (Done (Some e), h') →
  MarshalJSON (Some l) h'
  = (Done (list_byte_of_string (strconv_Quote old), None), h).
Proof.
  intros Hl Hrun.
  assert (h' = h) as -> by (by eapply UnmarshalJSON_failure).
  by apply MarshalJSON_allocated.
Qed.

(** X10: after a successful decode, [String] called through the receiver
    returns the text that was read, or the decimal text of the number, and
    does not touch the store. *)
Theorem decode_then_String l data h old :
  h !! l = Some old →
  (∀ text, json_Unmarshal data = inr (any_string text) →
     (UnmarshalJSON (Some l) data ;; String_through_pointer (Some l)) h
     = (Done text, <[l := text]> h))
  ∧ (∀ f, json_Unmarshal data = inr (any_float64 f) →
       (UnmarshalJSON (Some l) data ;; String_through_pointer (Some l)) h
       = (Done (strconv_FormatFloat f "f"%char (-1) 64),
          <[l := strconv_FormatFloat f "f"%char (-1) 64]> h)).
Proof.
  intros Hl. split.
  - intros text Hdata. unfold mbind at 1. unfold M_bind, Go.bind.
    rewrite (UnmarshalJSON_text _ _ _ _ _ Hl Hdata).
    apply String_allocated. by rewrite lookup_insert_eq.
  - intros f Hdata. unfold mbind at 1. unfold M_bind, Go.bind.
    rewrite (UnmarshalJSON_number _ _ _ _ _ Hl Hdata).
    apply String_allocated. by rewrite lookup_insert_eq.
Qed.

(** X11: encoding a value and decoding the bytes into a receiver gives
    that receiver the same text, provided the decoder reads the quoted
    literal back as that text. *)
Theorem encode_then_decode l l2 h (v old : MultiString) :
  h !! l = Some v →
  h !! l2 = Some old →
  json_Unmarshal (list_byte_of_string (strconv_Quote v)) = inr (any_string v) →
  (out ← MarshalJSON (Some l); UnmarshalJSON (Some l2) out.1) h
  = (Done None, <[l2 := v]> h).
Proof.
  intros Hl Hl2 Hback. unfold mbind at 1. unfold M_bind, Go.bind.
  rewrite (MarshalJSON_allocated _ _ _ Hl). simpl.
  by apply (UnmarshalJSON_text _ _ _ old).
Qed.

(** X12: through the nil receiver encoding writes [<nil>], with a nil
    error and the store untouched. *)
Theorem MarshalJSON_nil_receiver h :
  MarshalJSON None h = (Done (list_byte_of_string "<nil>", None), h).
Proof.
  unfold MarshalJSON, mbind, M_bind, Go.bind. by rewrite Sprintf_q_unfold.
Qed.

End MultiString_compose.

(** ** Validate through any receiver *)

Section Validate_receiver.
Context {L : Library}.
Implicit Types (h : gmap loc Bid) (l : loc) (b : Bid).

(** X13: whatever the receiver, a call leaves the store as it was; through
    the nil receiver it panics with the nil dereference; and when it
    returns, the result is nil or one of the two validation errors of the
    package, no other. *)
Theorem Validate_any_receiver (p : ptr) h :
  (Validate p h).2 = h
  ∧ (p = None → (Validate p h).1 = Panic nil_dereference)
  ∧ (∀ r, (Validate p h).1 = Done r →
       r ∈ [None; Some ErrInvalidBidNoID; Some ErrInvalidBidNoImpID]).
Proof.
  split; [apply Validate_keeps_store|]. split; [by intros ->|].
  intros r. unfold Validate, mbind, M_bind, Go.bind.
  destruct (load p h) as [[b|msg] h1]; [|by intros [=]].
  destruct (bool_decide (ID b = "")); [intros [= <-]; in_list|].
  destruct (bool_decide (ImpID b = "")); intros [= <-]; in_list.
Qed.

End Validate_receiver.

(** ** The members and their values *)

Section Wire_values.
Context {L : Library}.
Implicit Types (b : Bid) (v : field_value).

Lemma elem_of_unless_empty_pair (name n : string) v w :
  (name, v) ∈ unless_empty n w ↔ (name, v) = (n, w) ∧ isEmptyValue w = false.
Proof.
  unfold unless_empty. destruct (isEmptyValue w).
  - rewrite elem_of_nil. intuition congruence.
  - rewrite list_elem_of_singleton. intuition congruence.
Qed.

Lemma length_unless_empty (n : string) v :
  length (unless_empty n v) = if isEmptyValue v then 0%nat else 1%nat.
Proof. unfold unless_empty. by destruct (isEmptyValue v). Qed.

(** Each member is a field's value under the field's wire name; those of
    the fields tagged [omitempty] are there only when not empty. *)
Lemma elem_of_Bid_members b (name : string) v :
  (name, v) ∈ Bid_members b ↔
  (name, v) = ("id", v_string (ID b))
  ∨ (name, v) = ("impid", v_string (ImpID b))
  ∨ (name, v) = ("price", v_float64 (Price b))
  ∨ ((name, v) = ("adid", v_string (AdID b))
     ∧ isEmptyValue (v_string (AdID b)) = false)
  ∨ ((name, v) = ("nurl", v_string (NURL b))
     ∧ isEmptyValue (v_string (NURL b)) = false)
  ∨ ((name, v) = ("adm", v_string (AdMarkup b))
     ∧ isEmptyValue (v_string (AdMarkup b)) = false)
  ∨ ((name, v) = ("adomain", v_strings (AdvDomain b))
     ∧ isEmptyValue (v_strings (AdvDomain b)) = false)
  ∨ ((name, v) = ("bundle", v_string (Bundle b))
     ∧ isEmptyValue (v_string (Bundle b)) = false)
  ∨ ((name, v) = ("iurl", v_string (IURL b))
     ∧ isEmptyValue (v_string (IURL b)) = false)
  ∨ ((name, v) = ("cid", v_MultiString (CampaignID b))
     ∧ isEmptyValue (v_MultiString (CampaignID b)) = false)
  ∨ ((name, v) = ("crid", v_string (CreativeID b))
     ∧ isEmptyValue (v_string (CreativeID b)) = false)
  ∨ ((name, v) = ("cat", v_strings (Cat b))
     ∧ isEmptyValue (v_strings (Cat b)) = false)
  ∨ ((name, v) = ("attr", v_ints (Attr b))
     ∧ isEmptyValue (v_ints (Attr b)) = false)
  ∨ ((name, v) = ("api", v_int (API b))
     ∧ isEmptyValue (v_int (API b)) = false)
  ∨ ((name, v) = ("protocol", v_int (Protocol b))
     ∧ isEmptyValue (v_int (Protocol b)) = false)
  ∨ ((name, v) = ("qagmediarating", v_int (QAGMediaRating b))
     ∧ isEmptyValue (v_int (QAGMediaRating b)) = false)
  ∨ ((name, v) = ("dealid", v_string (DealID b))
     ∧ isEmptyValue (v_string (DealID b)) = false)
  ∨ ((name, v) = ("h", v_int (H b)) ∧ isEmptyValue (v_int (H b)) = false)
  ∨ ((name, v) = ("w", v_int (W b)) ∧ isEmptyValue (v_int (W b)) = false)
  ∨ ((name, v) = ("exp", v_int (Exp b))
     ∧ isEmptyValue (v_int (Exp b)) = false)
  ∨ ((name, v) = ("ext", v_Extension (Ext b))
     ∧ isEmptyValue (v_Extension (Ext b)) = false).
Proof.
  rewrite Bid_members_unfold.
  rewrite !elem_of_app, !elem_of_unless_empty_pair.
  rewrite !elem_of_cons, elem_of_nil. tauto.
Qed.

End Wire_values.

(** ** Counting the members *)

Section List_facts.
Context {A : Type}.
Implicit Types (l k : list A) (p : A → bool).

Lemma sublist_same_length l k :
  l `sublist_of` k → (length k ≤ length l)%nat → l = k.
Proof.
  induction 1 as [|x l k Hsub IH|x l k Hsub IH]; simpl; intros Hlen.
  - done.
  - f_equal. apply IH. lia.
  - apply sublist_length in Hsub. lia.
Qed.

Lemma filter_none p l :
  List.filter p l = [] ↔ Forall (λ x, p x = false) l.
Proof.
  induction l as [|x l IH]; simpl; [by rewrite Forall_nil|].
  rewrite Forall_cons, <-IH. destruct (p x); intuition congruence.
Qed.

Lemma filter_all p l :
  length (List.filter p l) = length l ↔ Forall (λ x, p x = true) l.
Proof.
  induction l as [|x l IH]; simpl; [by rewrite Forall_nil|].
  rewrite Forall_cons, <-IH.
  pose proof (List.filter_length_le p l) as Hle.
  destruct (p x); simpl; intuition (try congruence; try lia).
Qed.

End List_facts.

Section Wire_count.
Context {L : Library}.
Implicit Types (b : Bid) (v : field_value).

(** For fields that are all tagged [omitempty], the encoder writes as many
    members as there are fields that are not empty. *)
Lemma struct_members_omitempty fs b :
  Forall (λ f, ∃ name, wire_field f = Some (name, true)) fs →
  length (struct_members fs b)
  = length (List.filter (λ f, negb (isEmptyValue (field_get f b))) fs).
Proof.
  induction 1 as [|f fs [name Hf] _ IH]; [done|].
  change (struct_members (f :: fs) b)
    with (member f b ++ struct_members fs b).
  rewrite length_app, IH. unfold member. rewrite Hf. simpl.
  by destruct (isEmptyValue (field_get f b)).
Qed.

Lemma Bid_optional_tagged :
  Forall (λ f, ∃ name, wire_field f = Some (name, true)) (drop 3 Bid_fields).
Proof. simpl. repeat constructor; eexists; reflexivity. Qed.

Lemma Bid_members_split b :
  Bid_members b
  = [("id", v_string (ID b)); ("impid", v_string (ImpID b));
     ("price", v_float64 (Price b))]
    ++ struct_members (drop 3 Bid_fields) b.
Proof. reflexivity. Qed.

Lemma Bid_names_length b :
  length (Bid_names b)
  = (3 + length (List.filter (λ f, negb (isEmptyValue (field_get f b)))
                   (drop 3 Bid_fields)))%nat.
Proof.
  unfold Bid_names. rewrite length_fmap, Bid_members_split, length_app.
  by rewrite (struct_members_omitempty _ _ Bid_optional_tagged).
Qed.

(** X14: the object starts with [id], [impid] and [price], in this order
    and with the values of the three fields, empty or not; after them
    come as many members as there are optional fields that are not empty,
    eighteen at most. *)
Theorem Bid_members_required_first b :
  ∃ rest,
    Bid_members b
    = ("id", v_string (ID b)) :: ("impid", v_string (ImpID b))
      :: ("price", v_float64 (Price b)) :: rest
    ∧ length rest
      = length (List.filter (λ f, negb (isEmptyValue (field_get f b)))
                  (drop 3 Bid_fields))
    ∧ (length rest ≤ 18)%nat.
Proof.
  exists (struct_members (drop 3 Bid_fields) b).
  split; [apply Bid_members_split|].
  rewrite (struct_members_omitempty _ _ Bid_optional_tagged).
  split; [done|].
  apply (List.filter_length_le _ (drop 3 Bid_fields)).
Qed.

(** X15: the object has the three required members and no other exactly
    when every optional field of the record is empty. *)
Theorem Bid_names_minimal b :
  Bid_names b = ["id"; "impid"; "price"]
  ↔ Forall (λ f, isEmptyValue (field_get f b) = true) (drop 3 Bid_fields).
Proof.
  assert (Hempty :
    Forall (λ f, isEmptyValue (field_get f b) = true) (drop 3 Bid_fields)
    ↔ length (struct_members (drop 3 Bid_fields) b) = 0%nat).
  { rewrite (struct_members_omitempty _ _ Bid_optional_tagged).
    rewrite length_zero_iff_nil, filter_none.
    apply Forall_iff. intros f. by destruct (isEmptyValue (field_get f b)). }
  rewrite Hempty. unfold Bid_names. rewrite Bid_members_split, fmap_app.
  simpl. rewrite length_zero_iff_nil. split.
  - intros [= Hrest]. by apply fmap_nil_inv in Hrest.
  - by intros ->.
Qed.

(** X16: the object has all twenty-one names of the table of section 6, in
    the order of the table, exactly when no optional field of the record
    is empty. *)
Theorem Bid_names_full b :
  Bid_names b = wire_names
  ↔ Forall (λ f, isEmptyValue (field_get f b) = false) (drop 3 Bid_fields).
Proof.
  assert (Hfull :
    Forall (λ f, isEmptyValue (field_get f b) = false) (drop 3 Bid_fields)
    ↔ length (Bid_names b) = 21%nat).
  { rewrite Bid_names_length.
    transitivity
      (length (List.filter (λ f, negb (isEmptyValue (field_get f b)))
                 (drop 3 Bid_fields))
       = length (drop 3 Bid_fields)).
    - rewrite filter_all. apply Forall_iff. intros f.
      by destruct (isEmptyValue (field_get f b)).
    - assert (Hlen : length (drop 3 Bid_fields) = 18%nat) by reflexivity.
      rewrite Hlen. split; lia. }
  rewrite Hfull. split.
  - by intros ->.
  - intros Hlen. apply sublist_same_length; [apply Bid_names_sublist|].
    rewrite Hlen. done.
Qed.

(** X17: a member other than the three required ones is never written
    with an empty value. *)
Theorem Bid_optional_members_not_empty b (name : string) v :
  (name, v) ∈ Bid_members b →
  name ∉ ["id"; "impid"; "price"] →
  isEmptyValue v = false.
Proof.
  intros Hin Hname. apply elem_of_Bid_members in Hin.
  do 3 (destruct Hin as [[= -> ->]|Hin]; [exfalso; apply Hname; in_list|]).
  repeat (destruct Hin as [Hin|Hin]; [by destruct Hin as [[= -> ->] Hv]|]).
  by destruct Hin as [[= -> ->] Hv].
Qed.

End Wire_count.

(** ** Validation and the wire form together *)

Section Validated_wire.
Context {L : Library}.
Implicit Types (h : gmap loc Bid) (l : loc) (b : Bid) (v : field_value).

(** X18: for a record that [Validate] accepts, every member that is
    written, [price] apart, has a value that is not empty. *)
Theorem validated_members_not_empty h l b (name : string) v :
  h !! l = Some b →
  (Validate (Some l) h).1 = Done None →
  (name, v) ∈ Bid_members b →
  name ≠ "price" →
  isEmptyValue v = false.
Proof.
  intros Hl Hok Hin Hname.
  rewrite (Validate_allocated _ _ _ Hl) in Hok. simpl in Hok.
  destruct (decide (ID b = "")) as [Hid|Hid];
    [by rewrite (bool_decide_eq_true_2 _ Hid) in Hok|].
  destruct (decide (ImpID b = "")) as [Himp|Himp].
  { rewrite (bool_decide_eq_false_2 _ Hid) in Hok.
    by rewrite (bool_decide_eq_true_2 _ Himp) in Hok. }
  apply elem_of_Bid_members in Hin.
  destruct Hin as [[= -> ->]|Hin]; [by apply string_not_empty|].
  destruct Hin as [[= -> ->]|Hin]; [by apply string_not_empty|].
  destruct Hin as [[= -> ->]|Hin]; [done|].
  repeat (destruct Hin as [Hin|Hin]; [by destruct Hin as [[= -> ->] Hv]|]).
  by destruct Hin as [[= -> ->] Hv].
Qed.

End Validated_wire.

(** ** The further properties at work on the sample library *)

Lemma UnmarshalJSON_number_stored_witness :
  Sample.strings !! 1%positive = Some "old"
  ∧ json_Unmarshal (Library := Sample.library) (list_byte_of_string "123")
    = inr (any_float64 (123 : @float64 Sample.library))
  ∧ ∃ h', UnmarshalJSON (L := Sample.library) (Some 1%positive)
            (list_byte_of_string "123") Sample.strings = (Done None, h')
        ∧ h' !! 1%positive = Some "123"
        ∧ ∀ l', l' ≠ 1%positive → h' !! l' = Sample.strings !! l'.
Proof.
  assert (Hl : Sample.strings !! 1%positive = Some "old") by reflexivity.
  assert (Hdata : json_Unmarshal (Library := Sample.library)
                    (list_byte_of_string "123")
                  = inr (any_float64 (123 : @float64 Sample.library)))
    by reflexivity.
  split; [exact Hl|]. split; [exact Hdata|].
  exact (UnmarshalJSON_number_stored (L := Sample.library) _ _ _ _ _ Hl Hdata).
Defined.

Lemma UnmarshalJSON_names_shape_witness :
  json_Unmarshal (Library := Sample.library) (list_byte_of_string "true")
  = inr (any_bool true)
  ∧ json_Unmarshal (Library := Sample.library) (list_byte_of_string "[]")
    = inr (any_slice [])
  ∧ json_Unmarshal (Library := Sample.library) (list_byte_of_string "{}")
    = inr (any_map [])
  ∧ UnmarshalJSON (L := Sample.library) (Some 1%positive)
      (list_byte_of_string "true") Sample.strings
    = (Done (Some (errors_New "unknown type: bool")), Sample.strings)
  ∧ UnmarshalJSON (L := Sample.library) None
      (list_byte_of_string "[]") Sample.strings
    = (Done (Some (errors_New "unknown type: []interface {}")),
       Sample.strings)
  ∧ UnmarshalJSON (L := Sample.library) (Some 1%positive)
      (list_byte_of_string "{}") Sample.strings
    = (Done (Some (errors_New "unknown type: map[string]interface {}")),
       Sample.strings).
Proof.
  assert (Hbool : json_Unmarshal (Library := Sample.library)
                    (list_byte_of_string "true") = inr (any_bool true))
    by reflexivity.
  assert (Hslice : json_Unmarshal (Library := Sample.library)
                     (list_byte_of_string "[]") = inr (any_slice []))
    by reflexivity.
  assert (Hmap : json_Unmarshal (Library := Sample.library)
                   (list_byte_of_string "{}") = inr (any_map []))
    by reflexivity.
  split; [exact Hbool|]. split; [exact Hslice|]. split; [exact Hmap|].
  split; [|split].
  - exact (proj1 (UnmarshalJSON_names_shape (L := Sample.library)
                    _ _ _ _ Hbool) true eq_refl).
  - exact (proj1 (proj2 (UnmarshalJSON_names_shape (L := Sample.library)
                           _ _ _ _ Hslice)) [] eq_refl).
  - exact (proj2 (proj2 (UnmarshalJSON_names_shape (L := Sample.library)
                           _ _ _ _ Hmap)) [] eq_refl).
Defined.

Lemma UnmarshalJSON_outcomes_witness :
  Sample.strings !! 1%positive = Some "old"
  ∧ ∃ msg, (UnmarshalJSON (L := Sample.library) (Some 1%positive)
              (list_byte_of_string "null") Sample.strings).1 = Panic msg.
Proof.
  assert (Hl : Sample.strings !! 1%positive = Some "old") by reflexivity.
  split; [exact Hl|].
  destruct (UnmarshalJSON_outcomes (L := Sample.library) _
              (list_byte_of_string "null") _ _ Hl) as (_ & Hpanic & _).
  apply Hpanic. reflexivity.
Defined.

Lemma UnmarshalJSON_panic_witness :
  UnmarshalJSON (L := Sample.library) None
    (list_byte_of_string "7") Sample.strings
  = (Panic nil_dereference,
     (UnmarshalJSON (L := Sample.library) None
        (list_byte_of_string "7") Sample.strings).2)
  ∧ (UnmarshalJSON (L := Sample.library) None
       (list_byte_of_string "7") Sample.strings).2 = Sample.strings.
Proof.
  assert (Hrun : UnmarshalJSON (L := Sample.library) None
                   (list_byte_of_string "7") Sample.strings
                 = (Panic nil_dereference,
                    (UnmarshalJSON (L := Sample.library) None
                       (list_byte_of_string "7") Sample.strings).2))
    by reflexivity.
  split; [exact Hrun|].
  exact (proj1 (UnmarshalJSON_panic (L := Sample.library) _ _ _ _ _ Hrun)).
Defined.

Lemma UnmarshalJSON_overwrites_witness :
  Sample.strings !! 1%positive = Some "old"
  ∧ UnmarshalJSON (L := Sample.library) (Some 1%positive)
      (list_byte_of_string "42") Sample.strings
    = (Done None, <[1%positive := "42"]> Sample.strings)
  ∧ json_Unmarshal (Library := Sample.library)
      (list_byte_of_string (Sample.Quote "a b")) = inr (any_string "a b")
  ∧ UnmarshalJSON (L := Sample.library) (Some 1%positive)
      (list_byte_of_string (Sample.Quote "a b"))
      (<[1%positive := "42"]> Sample.strings)
    = (Done None, <[1%positive := "a b"]> Sample.strings).
Proof.
  assert (Hl : Sample.strings !! 1%positive = Some "old") by reflexivity.
  assert (Hrun : UnmarshalJSON (L := Sample.library) (Some 1%positive)
                   (list_byte_of_string "42") Sample.strings
                 = (Done None, <[1%positive := "42"]> Sample.strings))
    by reflexivity.
  assert (Hd2 : json_Unmarshal (Library := Sample.library)
                  (list_byte_of_string (Sample.Quote "a b"))
                = inr (any_string "a b")) by reflexivity.
  split; [exact Hl|]. split; [exact Hrun|]. split; [exact Hd2|].
  exact (UnmarshalJSON_overwrites (L := Sample.library)
           _ _ _ _ _ _ _ _ Hl Hrun Hd2).
Defined.

Lemma decode_then_encode_witness :
  Sample.strings !! 1%positive = Some "old"
  ∧ (UnmarshalJSON (L := Sample.library) (Some 1%positive)
       (list_byte_of_string "123") ;;
     MarshalJSON (L := Sample.library) (Some 1%positive)) Sample.strings
    = (Done (list_byte_of_string (Sample.Quote "123"), None),
       <[1%positive := "123"]> Sample.strings).
Proof.
  assert (Hl : Sample.strings !! 1%positive = Some "old") by reflexivity.
  split; [exact Hl|].
  destruct (decode_then_encode (L := Sample.library) _
              (list_byte_of_string "123") _ _ Hl) as [_ Hnumber].
  exact (Hnumber (123 : @float64 Sample.library) eq_refl).
Defined.

Lemma encode_after_failed_decode_witness :
  Sample.strings !! 1%positive = Some "old"
  ∧ UnmarshalJSON (L := Sample.library) (Some 1%positive)
      (list_byte_of_string "{") Sample.strings
    = (Done (Some (Sample.syntax_error 1)), Sample.strings)
  ∧ MarshalJSON (L := Sample.library) (Some 1%positive) Sample.strings
    = (Done (list_byte_of_string (Sample.Quote "old"), None), Sample.strings).
Proof.
  assert (Hl : Sample.strings !! 1%positive = Some "old") by reflexivity.
  assert (Hrun : UnmarshalJSON (L := Sample.library) (Some 1%positive)
                   (list_byte_of_string "{") Sample.strings
                 = (Done (Some (Sample.syntax_error 1)), Sample.strings))
    by reflexivity.
  split; [exact Hl|]. split; [exact Hrun|].
  exact (encode_after_failed_decode (L := Sample.library)
           _ _ _ _ _ _ Hl Hrun).
Defined.

Lemma decode_then_String_witness :
  Sample.strings !! 1%positive = Some "old"
  ∧ (UnmarshalJSON (L := Sample.library) (Some 1%positive)
       (list_byte_of_string (Sample.Quote "a b")) ;;
     String_through_pointer (Some 1%positive)) Sample.strings
    = (Done "a b", <[1%positive := "a b"]> Sample.strings).
Proof.
  assert (Hl : Sample.strings !! 1%positive = Some "old") by reflexivity.
  split; [exact Hl|].
  destruct (decode_then_String (L := Sample.library) _
              (list_byte_of_string (Sample.Quote "a b")) _ _ Hl)
    as [Htext _].
  exact (Htext "a b" eq_refl).
Defined.

Lemma encode_then_decode_witness :
  Sample.strings !! 1%positive = Some "old"
  ∧ json_Unmarshal (Library := Sample.library)
      (list_byte_of_string (strconv_Quote (Library := Sample.library) "old"))
    = inr (any_string "old")
  ∧ (out ← MarshalJSON (L := Sample.library) (Some 1%positive);
     UnmarshalJSON (L := Sample.library) (Some 1%positive) out.1)
      Sample.strings
    = (Done None, <[1%positive := "old"]> Sample.strings).
Proof.
  assert (Hl : Sample.strings !! 1%positive = Some "old") by reflexivity.
  assert (Hback : json_Unmarshal (Library := Sample.library)
                    (list_byte_of_string
                       (strconv_Quote (Library := Sample.library) "old"))
                  = inr (any_string "old")) by reflexivity.
  split; [exact Hl|]. split; [exact Hback|].
  exact (encode_then_decode (L := Sample.library) _ _ _ _ _ Hl Hl Hback).
Defined.

Lemma Bid_optional_members_not_empty_witness :
  ("cid", v_MultiString "123") ∈ Bid_members Sample.bid1
  ∧ ("cid" ∉ ["id"; "impid"; "price"])
  ∧ isEmptyValue (L := Sample.library) (v_MultiString "123") = false.
Proof.
  assert (Hin : ("cid", v_MultiString "123") ∈ Bid_members Sample.bid1).
  { apply elem_of_Bid_members. do 9 right. left. split; reflexivity. }
  assert (Hname : "cid" ∉ ["id"; "impid"; "price"]).
  { intros Hcid. not_in_list Hcid. }
  split; [exact Hin|]. split; [exact Hname|].
  exact (Bid_optional_members_not_empty (L := Sample.library) _ _ _ Hin Hname).
Defined.

Lemma validated_members_not_empty_witness :
  Sample.bids !! 1%positive = Some Sample.bid1
  ∧ (Validate (Some 1%positive) Sample.bids).1 = Done None
  ∧ ("id", v_string "b1") ∈ Bid_members Sample.bid1
  ∧ "id" ≠ "price"
  ∧ isEmptyValue (L := Sample.library) (v_string "b1") = false.
Proof.
  assert (Hl : Sample.bids !! 1%positive = Some Sample.bid1) by reflexivity.
  assert (Hok : (Validate (Some 1%positive) Sample.bids).1 = Done None)
    by reflexivity.
  assert (Hin : ("id", v_string "b1") ∈ Bid_members Sample.bid1).
  { apply elem_of_Bid_members. left. reflexivity. }
  assert (Hname : "id" ≠ "price") by discriminate.
  split; [exact Hl|]. split; [exact Hok|]. split; [exact Hin|].
  split; [exact Hname|].
  exact (validated_members_not_empty (L := Sample.library)
           _ _ _ _ _ Hl Hok Hin Hname).
Defined.
